(** * ComfyUI-Forms: the [MobileFormSettings] node

    A shallow embedding of [__init__.py]: the node class
    [MobileFormSettings] (its schema, its [store] action, its [IS_CHANGED]
    hook and its static attributes) and the two module-level lookup tables
    [NODE_CLASS_MAPPINGS] and [NODE_DISPLAY_NAME_MAPPINGS].

    Python dictionaries with string keys are finite maps ([gmap string _]),
    tuples are lists, floats are IEEE-754 values ([spec_float]), and a method
    is a computation in a state-and-exception monad over the object heap. *)

From Stdlib Require Import ZArith String Ascii List.
From Stdlib Require Import SpecFloat.
From stdpp Require Import gmap strings list fin_maps.

Import ListNotations.
Local Open Scope string_scope.
Local Set Warnings "-register-all".

(** ** Python values *)

Module Py.

(** The values the module builds: [None], booleans, strings, floats, tuples
    and string-keyed dictionaries; [VObj] is a reference to an instance on
    the heap and [VType] a reference to a class, the receivers of instance
    methods and of class methods. *)
Inductive pyval : Type :=
| VNone
| VBool (b : bool)
| VStr (s : string)
| VFloat (f : spec_float)
| VTuple (items : list pyval)
| VDict (entries : gmap string pyval)
| VObj (addr : nat)
| VType (name : string).

(** A dictionary display [{k1: v1, ..., kn: vn}]: the entries are inserted
    from left to right into an empty dictionary, so a later entry replaces
    an earlier one with the same key. *)
Definition dict_display {V : Type} (entries : list (string * V)) : gmap string V :=
  foldl (fun m kv => <[ kv.1 := kv.2 ]> m) ∅ entries.

(** Exceptions a call can raise. *)
Inductive pyexn : Type :=
| TypeError
| ValueError.

(** The object heap: every instance is an address holding its attribute
    dictionary. *)
Definition heap : Type := gmap nat (gmap string pyval).

(** Computations: read and write the heap, return a value or raise. *)
Definition M (A : Type) : Type := heap -> (pyexn + A) * heap.

Definition ret {A : Type} (a : A) : M A := fun h => (inr a, h).

Definition raise {A : Type} (e : pyexn) : M A := fun h => (inl e, h).

Definition bind {A B : Type} (c : M A) (k : A -> M B) : M B :=
  fun h =>
    match c h with
    | (inr a, h') => k a h'
    | (inl e, h') => (inl e, h')
    end.

(** *** The [float] constructor on strings

    [float(s)] strips surrounding whitespace, then accepts an optional sign
    followed by [nan], [inf] or [infinity] in any letter case, or a numeric
    literal.  The special values are decided here; the conversion of a
    numeric literal is a parameter of [py_float].

    A character of a string stands for the code point of its number.  The
    whitespace [float] strips is tab to carriage return (9 to 13) and the
    space (32), and, among the code points above 127, those that are
    Unicode whitespace: next line (133) and no-break space (160).  The
    separators 28 to 31 are not stripped. *)

Definition is_space (c : ascii) : bool :=
  let n := nat_of_ascii c in
  (Nat.leb 9 n && Nat.leb n 13) || Nat.eqb n 32
  || Nat.eqb n 133 || Nat.eqb n 160.

Definition lower_ascii (c : ascii) : ascii :=
  let n := nat_of_ascii c in
  if Nat.leb 65 n && Nat.leb n 90 then ascii_of_nat (n + 32) else c.

Fixpoint lower (s : string) : string :=
  match s with
  | EmptyString => EmptyString
  | String c s' => String (lower_ascii c) (lower s')
  end.

Fixpoint lstrip (s : string) : string :=
  match s with
  | String c s' => if is_space c then lstrip s' else s
  | EmptyString => EmptyString
  end.

Definition rstrip (s : string) : string :=
  String.rev (lstrip (String.rev s)).

Definition strip (s : string) : string := rstrip (lstrip s).

(** An optional leading sign: [true] for a minus. *)
Definition split_sign (s : string) : bool * string :=
  match s with
  | String "-" s' => (true, s')
  | String "+" s' => (false, s')
  | _ => (false, s)
  end.

Definition float_special (s : string) : option spec_float :=
  let '(neg, body) := split_sign (strip s) in
  let body := lower body in
  if String.eqb body "nan" then Some S754_nan
  else if String.eqb body "inf" || String.eqb body "infinity"
       then Some (S754_infinity neg)
  else None.

Definition py_float (numeric : string -> option spec_float) (s : string)
  : M pyval :=
  match float_special s with
  | Some f => ret (VFloat f)
  | None =>
      match numeric s with
      | Some f => ret (VFloat f)
      | None => raise ValueError
      end
  end.

(** Comparison of two floats with [==] and [!=]: the IEEE-754 comparison,
    under which a NaN is unordered with every value. *)
Definition float_eq (x y : spec_float) : bool := SFeqb x y.

Definition float_ne (x y : spec_float) : bool := negb (SFeqb x y).

(** *** Functions, classes and calls *)

(** A function: its parameters after the receiver, each with its default
    when it has one, and its body, run on the receiver and the local
    variables. *)
Record pyfunction : Type := {
  fn_params : list (string * option pyval);
  fn_body : pyval -> gmap string pyval -> M pyval
}.

(** Binding keyword arguments to parameters: a parameter takes the keyword
    argument of its name, else its default; a parameter with neither, or a
    keyword that names no parameter, is a [TypeError]. *)
Fixpoint bind_params (params : list (string * option pyval))
    (kwargs : gmap string pyval) : option (gmap string pyval) :=
  match params with
  | [] => if decide (size kwargs = 0) then Some ∅ else None
  | (x, d) :: ps =>
      match from_option Some d (kwargs !! x) with
      | Some v =>
          match bind_params ps (delete x kwargs) with
          | Some locals => Some (<[ x := v ]> locals)
          | None => None
          end
      | None => None
      end
  end.

Definition call (f : pyfunction) (recv : pyval) (kwargs : gmap string pyval)
  : M pyval :=
  match bind_params (fn_params f) kwargs with
  | Some locals => fn_body f recv locals
  | None => raise TypeError
  end.

(** A member of a class body: a plain attribute, a method, or a method
    under [@classmethod].  Docstrings are left out of the model. *)
Inductive member : Type :=
| Attr (v : pyval)
| InstanceMethod (f : pyfunction)
| ClassMethod (f : pyfunction).

Record pyclass : Type := {
  cls_name : string;
  cls_dict : gmap string member
}.

(** Subscription [v[k]] of a dictionary and [v[i]] of a tuple, as a reader of
    the schema performs them; [None] when the key or index is absent. *)
Definition getitem (v : pyval) (k : string) : option pyval :=
  match v with
  | VDict d => d !! k
  | _ => None
  end.

Definition getindex (v : pyval) (i : nat) : option pyval :=
  match v with
  | VTuple items => items !! i
  | _ => None
  end.

End Py.

Import Py.

(** ** The module [__init__.py] *)

Section Node.

(** Conversion of a numeric literal by [float]; [None] when the string is
    no literal. *)
Variable float_of_numeric : string -> option spec_float.

(** [INPUT_TYPES(cls)], a class method. *)
Definition INPUT_TYPES : pyfunction := {|
  fn_params := [];
  fn_body := fun cls locals =>
    ret (VDict (dict_display [
      ("required", VDict (dict_display [
         ("settings_json", VTuple [
            VStr "STRING";
            VDict (dict_display [
              ("default", VStr "{}");
              ("multiline", VBool true);
              ("dynamicPrompts", VBool false) ]) ]) ]));
      ("optional", VDict (dict_display [])) ]))
|}.

(** [store(self, settings_json="{}")] *)
Definition store : pyfunction := {|
  fn_params := [("settings_json", Some (VStr "{}"))];
  fn_body := fun self locals => ret (VDict (dict_display []))
|}.

(** [IS_CHANGED(cls, settings_json="{}")], a class method. *)
Definition IS_CHANGED : pyfunction := {|
  fn_params := [("settings_json", Some (VStr "{}"))];
  fn_body := fun cls locals => py_float float_of_numeric "nan"
|}.

Definition MobileFormSettings : pyclass := {|
  cls_name := "MobileFormSettings";
  cls_dict := dict_display [
    ("INPUT_TYPES", ClassMethod INPUT_TYPES);
    ("RETURN_TYPES", Attr (VTuple []));
    ("FUNCTION", Attr (VStr "store"));
    ("CATEGORY", Attr (VStr "MobileForm"));
    ("OUTPUT_NODE", Attr (VBool true));
    ("store", InstanceMethod store);
    ("IS_CHANGED", ClassMethod IS_CHANGED) ]
|}.

Definition NODE_CLASS_MAPPINGS : gmap string pyclass :=
  dict_display [("MobileFormSettings", MobileFormSettings)].

Definition NODE_DISPLAY_NAME_MAPPINGS : gmap string string :=
  dict_display [("MobileFormSettings", "Mobile Form Settings")].

Definition WEB_DIRECTORY : string := "./web".

Definition __all__ : list string :=
  ["NODE_CLASS_MAPPINGS"; "NODE_DISPLAY_NAME_MAPPINGS"; "WEB_DIRECTORY"].

(** *** How the declarations are read

    The two definitions below are not part of the module: they spell out
    how a reader of the class gets at what the properties speak of. *)

(** The default a schema declares for a required field:
    [schema["required"][field][1]["default"]]. *)
Definition declared_default (schema : pyval) (field : string) : option pyval :=
  match getitem schema "required" with
  | Some required =>
      match getitem required field with
      | Some spec =>
          match getindex spec 1 with
          | Some options => getitem options "default"
          | None => None
          end
      | None => None
      end
  | None => None
  end.

(** The action of a node class: the method its [FUNCTION] attribute names,
    [getattr(obj, cls.FUNCTION)]. *)
Definition node_action (c : pyclass) : option pyfunction :=
  match cls_dict c !! "FUNCTION" with
  | Some (Attr (VStr name)) =>
      match cls_dict c !! name with
      | Some (InstanceMethod f) => Some f
      | _ => None
      end
  | _ => None
  end.

(** The function a member of a class body holds, when it is a method. *)
Definition member_function (m : member) : option pyfunction :=
  match m with
  | Attr _ => None
  | InstanceMethod f => Some f
  | ClassMethod f => Some f
  end.

(** The names of the parameters of a function, after the receiver. *)
Definition param_names (f : pyfunction) : gset string :=
  list_to_set (fn_params f).*1.

(** What the module binds at its top level. *)
Inductive global : Type :=
| GClass (c : pyclass)
| GClassTable (t : gmap string pyclass)
| GNameTable (t : gmap string string)
| GString (s : string)
| GNames (names : list string).

(** The namespace of the module once its body has run: the class and the
    four assignments, in the order of the file.  The names the interpreter
    binds by itself ([__name__], [__doc__], ...) are left out. *)
Definition module_namespace : gmap string global :=
  dict_display [
    ("MobileFormSettings", GClass MobileFormSettings);
    ("NODE_CLASS_MAPPINGS", GClassTable NODE_CLASS_MAPPINGS);
    ("NODE_DISPLAY_NAME_MAPPINGS", GNameTable NODE_DISPLAY_NAME_MAPPINGS);
    ("WEB_DIRECTORY", GString WEB_DIRECTORY);
    ("__all__", GNames __all__) ].

(** ** Facts about dictionary displays and calls *)

Lemma dict_display_nil {V : Type} : dict_display (V := V) [] = ∅.
Proof. reflexivity. Qed.

Lemma dict_display_singleton {V : Type} (k : string) (v : V) :
  dict_display [(k, v)] = {[ k := v ]}.
Proof. unfold dict_display; simpl. apply insert_empty. Qed.

Lemma singleton_exactly_one {V : Type} (k : string) (v : V) :
  size ({[ k := v ]} : gmap string V) = 1 /\
  forall k' v', ({[ k := v ]} : gmap string V) !! k' = Some v' <->
                k' = k /\ v' = v.
Proof.
  split; [apply map_size_singleton|].
  intros k' v'. rewrite lookup_singleton_Some. intuition congruence.
Qed.

(** A call that passes the one parameter by keyword binds it to the
    argument. *)
Lemma bind_params_keyword (x : string) (d : option pyval) (v : pyval) :
  bind_params [(x, d)] {[ x := v ]} = Some {[ x := v ]}.
Proof.
  simpl. rewrite lookup_singleton_eq. simpl.
  rewrite delete_singleton_eq, map_size_empty.
  rewrite decide_True by reflexivity. by rewrite insert_empty.
Qed.

(** A call that omits the one parameter binds it to its default. *)
Lemma bind_params_omitted (x : string) (d : pyval) :
  bind_params [(x, Some d)] ∅ = Some {[ x := d ]}.
Proof.
  simpl. rewrite lookup_empty. simpl.
  rewrite delete_empty, map_size_empty.
  rewrite decide_True by reflexivity. by rewrite insert_empty.
Qed.

Lemma call_keyword (f : pyfunction) (x : string) (d : option pyval)
    (recv v : pyval) (h : heap) :
  fn_params f = [(x, d)] ->
  call f recv {[ x := v ]} h = fn_body f recv {[ x := v ]} h.
Proof. intros Hp. unfold call. by rewrite Hp, bind_params_keyword. Qed.

Lemma call_omitted (f : pyfunction) (x : string) (d recv : pyval) (h : heap) :
  fn_params f = [(x, Some d)] ->
  call f recv ∅ h = fn_body f recv {[ x := d ]} h.
Proof. intros Hp. unfold call. by rewrite Hp, bind_params_omitted. Qed.

Lemma float_special_nan : float_special "nan" = Some S754_nan.
Proof. reflexivity. Qed.

Lemma IS_CHANGED_body (cls : pyval) (locals : gmap string pyval) (h : heap) :
  fn_body IS_CHANGED cls locals h = (inr (VFloat S754_nan), h).
Proof. simpl. unfold py_float. by rewrite float_special_nan. Qed.

Lemma IS_CHANGED_keyword (cls : pyval) (s : string) (h : heap) :
  call IS_CHANGED cls {[ "settings_json" := VStr s ]} h
  = (inr (VFloat S754_nan), h).
Proof.
  rewrite (call_keyword _ _ (Some (VStr "{}"))) by reflexivity.
  apply IS_CHANGED_body.
Qed.

(** ** The properties of the node *)

(** C1: for every input string [s], [IS_CHANGED] returns the not-a-number
    float, so the result is the same for any two inputs; this holds as well
    when the argument is omitted. *)
Theorem IS_CHANGED_always_nan (cls : pyval) (h : heap) :
  (forall s : string,
     call IS_CHANGED cls {[ "settings_json" := VStr s ]} h
     = (inr (VFloat S754_nan), h)) /\
  call IS_CHANGED cls ∅ h = (inr (VFloat S754_nan), h) /\
  (forall s1 s2 : string,
     call IS_CHANGED cls {[ "settings_json" := VStr s1 ]} h
     = call IS_CHANGED cls {[ "settings_json" := VStr s2 ]} h).
Proof.
  pose proof (IS_CHANGED_keyword cls) as Hs.
  split; [intros s; apply Hs|]. split.
  - rewrite (call_omitted _ "settings_json" (VStr "{}")) by reflexivity.
    apply IS_CHANGED_body.
  - intros s1 s2. by rewrite !Hs.
Qed.

(** C2: [INPUT_TYPES] returns a schema whose [required] part has exactly
    one field, [settings_json], of type [STRING], with default [{}],
    [multiline] set and [dynamicPrompts] cleared. *)
Theorem INPUT_TYPES_one_required_field (cls : pyval) (h : heap) :
  exists schema required options : gmap string pyval,
    call INPUT_TYPES cls ∅ h = (inr (VDict schema), h) /\
    schema !! "required" = Some (VDict required) /\
    size required = 1 /\
    (forall k v, required !! k = Some v <->
       k = "settings_json" /\ v = VTuple [VStr "STRING"; VDict options]) /\
    options !! "default" = Some (VStr "{}") /\
    options !! "multiline" = Some (VBool true) /\
    options !! "dynamicPrompts" = Some (VBool false).
Proof.
  set (options := dict_display [
         ("default", VStr "{}");
         ("multiline", VBool true);
         ("dynamicPrompts", VBool false) ]).
  set (field := VTuple [VStr "STRING"; VDict options]).
  exists (dict_display [
            ("required", VDict (dict_display [("settings_json", field)]));
            ("optional", VDict (dict_display [])) ]),
         {[ "settings_json" := field ]}, options.
  split; [reflexivity|].
  split; [by rewrite dict_display_singleton|].
  destruct (singleton_exactly_one "settings_json" field) as [Hsize Hlook].
  split; [exact Hsize|]. split; [exact Hlook|].
  repeat split; vm_compute; reflexivity.
Qed.

(** C3: for every input string [s], [store] returns the empty dictionary
    and raises nothing, from any receiver and in any heap; so does a call
    that omits the argument. *)
Theorem store_returns_empty (self : pyval) (s : string) (h : heap) :
  fst (call store self {[ "settings_json" := VStr s ]} h) = inr (VDict ∅) /\
  fst (call store self ∅ h) = inr (VDict ∅).
Proof.
  split.
  - by rewrite (call_keyword _ _ (Some (VStr "{}"))).
  - by rewrite (call_omitted _ "settings_json" (VStr "{}")).
Qed.

(** C4: the registration table has exactly one entry, which maps
    [MobileFormSettings] to the node class. *)
Theorem NODE_CLASS_MAPPINGS_one_entry :
  size NODE_CLASS_MAPPINGS = 1 /\
  forall (k : string) (c : pyclass),
    NODE_CLASS_MAPPINGS !! k = Some c <->
    k = "MobileFormSettings" /\ c = MobileFormSettings.
Proof.
  unfold NODE_CLASS_MAPPINGS. rewrite dict_display_singleton.
  apply singleton_exactly_one.
Qed.

(** C5: the display-name table has exactly one entry, which maps
    [MobileFormSettings] to the label [Mobile Form Settings]. *)
Theorem NODE_DISPLAY_NAME_MAPPINGS_one_entry :
  size NODE_DISPLAY_NAME_MAPPINGS = 1 /\
  forall k label : string,
    NODE_DISPLAY_NAME_MAPPINGS !! k = Some label <->
    k = "MobileFormSettings" /\ label = "Mobile Form Settings".
Proof.
  unfold NODE_DISPLAY_NAME_MAPPINGS. rewrite dict_display_singleton.
  apply singleton_exactly_one.
Qed.

(** C6: for every input string [s], the value [IS_CHANGED] returns is a
    float that [==] does not find equal to itself, and that [!=] finds
    different from itself. *)
Theorem IS_CHANGED_not_equal_to_itself (cls : pyval) (s : string) (h : heap) :
  exists f : spec_float,
    fst (call IS_CHANGED cls {[ "settings_json" := VStr s ]} h)
    = inr (VFloat f) /\
    float_eq f f = false /\
    float_ne f f = true.
Proof.
  exists S754_nan.
  rewrite IS_CHANGED_keyword. simpl.
  repeat split; vm_compute; reflexivity.
Qed.

(** C7: the schema [INPUT_TYPES] returns declares no optional field: its
    [optional] part is the empty dictionary. *)
Theorem INPUT_TYPES_no_optional_field (cls : pyval) (h : heap) :
  exists schema : gmap string pyval,
    call INPUT_TYPES cls ∅ h = (inr (VDict schema), h) /\
    schema !! "optional" = Some (VDict ∅).
Proof.
  exists (dict_display [
            ("required", VDict (dict_display [
               ("settings_json", VTuple [
                  VStr "STRING";
                  VDict (dict_display [
                    ("default", VStr "{}");
                    ("multiline", VBool true);
                    ("dynamicPrompts", VBool false) ]) ]) ]));
            ("optional", VDict (dict_display [])) ]).
  split; [reflexivity|]. vm_compute; reflexivity.
Qed.

(** C8: for every input string [s], every receiver and every heap, [store]
    leaves the heap as it found it. *)
Theorem store_leaves_heap (self : pyval) (s : string) (h : heap) :
  snd (call store self {[ "settings_json" := VStr s ]} h) = h.
Proof.
  by rewrite (call_keyword _ _ (Some (VStr "{}"))).
Qed.

(** C9: the default of the [settings_json] parameter of [store] and of
    [IS_CHANGED] is the default the schema declares for the field
    [settings_json]; a call that omits the argument binds the same local
    variables, and gives the same result and heap, as a call that passes
    the declared default. *)
Theorem defaults_agree_with_schema (cls self : pyval) (h : heap) :
  exists schema d : pyval,
    fst (call INPUT_TYPES cls ∅ h) = inr schema /\
    declared_default schema "settings_json" = Some d /\
    fn_params store = [("settings_json", Some d)] /\
    fn_params IS_CHANGED = [("settings_json", Some d)] /\
    bind_params (fn_params store) ∅
    = bind_params (fn_params store) {[ "settings_json" := d ]} /\
    bind_params (fn_params IS_CHANGED) ∅
    = bind_params (fn_params IS_CHANGED) {[ "settings_json" := d ]} /\
    call store self ∅ h = call store self {[ "settings_json" := d ]} h /\
    call IS_CHANGED cls ∅ h
    = call IS_CHANGED cls {[ "settings_json" := d ]} h.
Proof.
  eexists _, (VStr "{}").
  split; [reflexivity|].
  split; [reflexivity|].
  split; [reflexivity|].
  split; [reflexivity|].
  assert (Hb : forall f : pyfunction,
             fn_params f = [("settings_json", Some (VStr "{}"))] ->
             bind_params (fn_params f) ∅
             = bind_params (fn_params f) {[ "settings_json" := VStr "{}" ]}).
  { intros f ->. by rewrite bind_params_omitted, bind_params_keyword. }
  split; [by apply Hb|]. split; [by apply Hb|].
  unfold call. by rewrite !Hb.
Qed.

(** ** Further properties: calls with arbitrary keyword arguments *)

(** With no parameter, binding succeeds exactly when no keyword is
    passed. *)
Lemma bind_params_nil (kwargs : gmap string pyval) :
  bind_params [] kwargs
  = if decide (dom kwargs = (∅ : gset string)) then Some ∅ else None.
Proof.
  simpl. destruct (decide (size kwargs = 0)) as [Hz|Hz];
    destruct (decide (dom kwargs = (∅ : gset string))) as [Hd|Hd];
    try reflexivity; exfalso.
  - apply Hd. apply map_size_empty_iff in Hz. subst. apply dom_empty_L.
  - apply Hz. apply dom_empty_iff_L in Hd. subst. apply map_size_empty.
Qed.

(** With one parameter that has a default, binding succeeds exactly when
    no keyword other than the parameter is passed; the parameter takes the
    argument, else the default. *)
Lemma bind_params_one (x : string) (d : pyval) (kwargs : gmap string pyval) :
  bind_params [(x, Some d)] kwargs
  = if decide (dom kwargs ⊆ ({[ x ]} : gset string))
    then Some {[ x := default d (kwargs !! x) ]}
    else None.
Proof.
  change (bind_params [(x, Some d)] kwargs)
    with (match from_option Some (Some d) (kwargs !! x) with
          | Some v =>
              match bind_params [] (delete x kwargs) with
              | Some locals => Some (<[ x := v ]> locals)
              | None => None
              end
          | None => None
          end).
  rewrite bind_params_nil.
  assert (Hv : from_option Some (Some d) (kwargs !! x)
               = Some (default d (kwargs !! x)))
    by (destruct (kwargs !! x); reflexivity).
  rewrite Hv, dom_delete_L. clear Hv.
  generalize (default d (kwargs !! x)); intros v.
  generalize (dom kwargs); intros ks.
  destruct (decide (ks ∖ {[ x ]} = (∅ : gset string))) as [He|He];
    destruct (decide (ks ⊆ ({[ x ]} : gset string))) as [Hs|Hs].
  - by rewrite insert_empty.
  - exfalso. apply Hs. intros y Hy. destruct (decide (y = x)) as [->|Hne].
    + by apply elem_of_singleton.
    + assert (Hin : y ∈ ks ∖ {[ x ]})
        by (apply elem_of_difference; split;
            [exact Hy | by rewrite elem_of_singleton]).
      rewrite He in Hin. by apply elem_of_empty in Hin.
  - exfalso. apply He. apply set_eq. intros y. split.
    + intros [Hy Hnx]%elem_of_difference. exfalso. apply Hnx. by apply Hs.
    + intros Hy. by apply elem_of_empty in Hy.
  - reflexivity.
Qed.

(** A call changes the heap only if the body of the function does. *)
Lemma call_frame (f : pyfunction) :
  (forall recv locals h, snd (fn_body f recv locals h) = h) ->
  forall recv kwargs h, snd (call f recv kwargs h) = h.
Proof.
  intros Hbody recv kwargs h. unfold call.
  destruct (bind_params (fn_params f) kwargs); [apply Hbody|reflexivity].
Qed.

(** X1: whatever keyword arguments [store] is called with, and whatever
    their values, it returns the empty dictionary when no keyword other
    than [settings_json] is passed and raises [TypeError] otherwise; the
    heap is unchanged either way. *)
Theorem store_call_outcome (self : pyval) (kwargs : gmap string pyval)
    (h : heap) :
  call store self kwargs h
  = (if decide (dom kwargs ⊆ ({[ "settings_json" ]} : gset string))
     then inr (VDict ∅) else inl TypeError, h).
Proof.
  unfold call. change (fn_params store) with [("settings_json", Some (VStr "{}"))].
  rewrite bind_params_one.
  by destruct (decide (dom kwargs ⊆ ({[ "settings_json" ]} : gset string))).
Qed.

(** X2: whatever keyword arguments [IS_CHANGED] is called with, and
    whatever their values, it returns the not-a-number float when no
    keyword other than [settings_json] is passed and raises [TypeError]
    otherwise; the heap is unchanged either way. *)
Theorem IS_CHANGED_call_outcome (cls : pyval) (kwargs : gmap string pyval)
    (h : heap) :
  call IS_CHANGED cls kwargs h
  = (if decide (dom kwargs ⊆ ({[ "settings_json" ]} : gset string))
     then inr (VFloat S754_nan) else inl TypeError, h).
Proof.
  unfold call.
  change (fn_params IS_CHANGED) with [("settings_json", Some (VStr "{}"))].
  rewrite bind_params_one.
  destruct (decide (dom kwargs ⊆ ({[ "settings_json" ]} : gset string)));
    [apply IS_CHANGED_body|reflexivity].
Qed.

(** X3: [INPUT_TYPES] takes no argument: called with any keyword it raises
    [TypeError], and called with none it returns a dictionary; the heap is
    unchanged either way, and the result does not depend on the receiver or
    on the heap. *)
Theorem INPUT_TYPES_call_outcome :
  exists schema : gmap string pyval,
    forall (cls : pyval) (kwargs : gmap string pyval) (h : heap),
      call INPUT_TYPES cls kwargs h
      = (if decide (dom kwargs = (∅ : gset string))
         then inr (VDict schema) else inl TypeError, h).
Proof.
  eexists. intros cls kwargs h. unfold call.
  change (fn_params INPUT_TYPES) with (@nil (string * option pyval)).
  rewrite bind_params_nil.
  destruct (decide (dom kwargs = (∅ : gset string))); reflexivity.
Qed.

(** ** Further properties: the schema, the signatures and the tables *)

Lemma INPUT_TYPES_schema (cls : pyval) (h : heap) :
  call INPUT_TYPES cls ∅ h
  = (inr (VDict (<[ "optional" := VDict ∅ ]>
                   (<[ "required" :=
                         VDict {[ "settings_json" :=
                           VTuple [
                             VStr "STRING";
                             VDict (<[ "dynamicPrompts" := VBool false ]>
                                     (<[ "multiline" := VBool true ]>
                                       (<[ "default" := VStr "{}" ]> ∅))) ] ]}
                    ]> ∅))), h).
Proof.
  unfold call; simpl. unfold ret, dict_display; simpl.
  by rewrite insert_empty.
Qed.

(** X4: the fields the schema declares, required and optional together,
    are exactly the parameters of [store] and of [IS_CHANGED]: a call that
    passes one keyword per declared field names no unknown parameter. *)
Theorem signatures_match_schema (cls : pyval) (h : heap) :
  exists schema required optional : gmap string pyval,
    call INPUT_TYPES cls ∅ h = (inr (VDict schema), h) /\
    schema !! "required" = Some (VDict required) /\
    schema !! "optional" = Some (VDict optional) /\
    param_names store = dom required ∪ dom optional /\
    param_names IS_CHANGED = dom required ∪ dom optional.
Proof.
  rewrite INPUT_TYPES_schema. eexists _, {[ "settings_json" := _ ]}, ∅.
  split; [reflexivity|].
  split; [by rewrite lookup_insert_ne, lookup_insert_eq|].
  split; [by rewrite lookup_insert_eq|].
  unfold param_names; simpl.
  rewrite dom_singleton_L, dom_empty_L.
  split; set_solver.
Qed.

(** X5: the schema has the two parts [required] and [optional] and no
    other (no [hidden] part), and the options of [settings_json] are
    [default], [multiline] and [dynamicPrompts] and no other. *)
Theorem schema_has_no_other_key (cls : pyval) (h : heap) :
  exists (schema required options : gmap string pyval) (type : pyval),
    call INPUT_TYPES cls ∅ h = (inr (VDict schema), h) /\
    dom schema = ({[ "required"; "optional" ]} : gset string) /\
    schema !! "required" = Some (VDict required) /\
    required !! "settings_json" = Some (VTuple [type; VDict options]) /\
    dom options
    = ({[ "default"; "multiline"; "dynamicPrompts" ]} : gset string).
Proof.
  rewrite INPUT_TYPES_schema. eexists _, {[ "settings_json" := _ ]}, _, _.
  split; [reflexivity|].
  split; [rewrite !dom_insert_L, dom_empty_L; set_solver|].
  split; [by rewrite lookup_insert_ne, lookup_insert_eq|].
  split; [apply lookup_singleton_eq|].
  rewrite !dom_insert_L, dom_empty_L; set_solver.
Qed.

Lemma NODE_CLASS_MAPPINGS_entry (k : string) (c : pyclass) :
  NODE_CLASS_MAPPINGS !! k = Some c ->
  k = "MobileFormSettings" /\ c = MobileFormSettings.
Proof.
  unfold NODE_CLASS_MAPPINGS. rewrite dict_display_singleton.
  rewrite lookup_singleton_Some. intuition congruence.
Qed.

(** X6: every class in the registration table is registered under its own
    class name. *)
Theorem registered_under_class_name (k : string) (c : pyclass) :
  NODE_CLASS_MAPPINGS !! k = Some c -> cls_name c = k.
Proof.
  intros Hk. apply NODE_CLASS_MAPPINGS_entry in Hk as [-> ->]. reflexivity.
Qed.

(** X7: the two tables have the same keys: an identifier has a display
    name exactly when a class is registered under it. *)
Theorem tables_have_same_keys :
  dom NODE_DISPLAY_NAME_MAPPINGS = dom NODE_CLASS_MAPPINGS.
Proof.
  unfold NODE_DISPLAY_NAME_MAPPINGS, NODE_CLASS_MAPPINGS.
  by rewrite !dict_display_singleton, !dom_singleton_L.
Qed.

(** X8: every name [__all__] lists is bound by the module, no name is
    listed twice, and the class itself is not listed, although the module
    binds it. *)
Theorem all_lists_bound_names :
  Forall (fun name => is_Some (module_namespace !! name)) __all__ /\
  NoDup __all__ /\
  ("MobileFormSettings" ∉ __all__) /\
  is_Some (module_namespace !! "MobileFormSettings").
Proof.
  split; [|split; [|split]].
  - unfold __all__. repeat constructor; vm_compute; eauto.
  - apply (bool_decide_unpack _). vm_compute. exact I.
  - apply (bool_decide_unpack _). vm_compute. exact I.
  - vm_compute; eauto.
Qed.

(** X9: for every input string [s], the float [IS_CHANGED] returns is
    unequal to every float, on either side of [==], and [!=] holds between
    it and every float: no earlier result, whatever it was, compares equal
    to a new one. *)
Theorem IS_CHANGED_differs_from_every_float (cls : pyval) (s : string)
    (h : heap) :
  exists f : spec_float,
    fst (call IS_CHANGED cls {[ "settings_json" := VStr s ]} h)
    = inr (VFloat f) /\
    forall g : spec_float,
      float_eq f g = false /\ float_eq g f = false /\
      float_ne f g = true /\ float_ne g f = true.
Proof.
  exists S754_nan. rewrite IS_CHANGED_keyword. split; [reflexivity|].
  intros g. destruct g; repeat split; reflexivity.
Qed.

(** X10: no method of the class changes the heap: whichever method the
    class body defines, whatever the receiver and the keyword arguments,
    and whether the call returns or raises, the heap after the call is the
    heap before it. *)
Theorem methods_leave_heap (name : string) (m : member) (f : pyfunction) :
  cls_dict MobileFormSettings !! name = Some m ->
  member_function m = Some f ->
  forall (recv : pyval) (kwargs : gmap string pyval) (h : heap),
    snd (call f recv kwargs h) = h.
Proof.
  intros Hm Hf. apply call_frame.
  unfold MobileFormSettings, dict_display in Hm; simpl in Hm.
  repeat (apply lookup_insert_Some in Hm as [[<- <-]|[_ Hm]];
          [simpl in Hf; try discriminate Hf; injection Hf as <-|]).
  - intros recv locals h. apply (f_equal snd (IS_CHANGED_body recv locals h)).
  - reflexivity.
  - reflexivity.
  - by rewrite lookup_empty in Hm.
Qed.

(** X11: from registration to execution: take any registered class, the
    action its [FUNCTION] attribute names and the schema its [INPUT_TYPES]
    returns; a call of the action with one keyword per declared field,
    whatever the values, returns the empty dictionary and leaves the heap
    unchanged. *)
Theorem registered_action_accepts_declared_fields
    (k : string) (c : pyclass) (f g : pyfunction)
    (schema required optional kwargs : gmap string pyval)
    (self cls : pyval) (h : heap) :
  NODE_CLASS_MAPPINGS !! k = Some c ->
  node_action c = Some f ->
  cls_dict c !! "INPUT_TYPES" = Some (ClassMethod g) ->
  call g cls ∅ h = (inr (VDict schema), h) ->
  schema !! "required" = Some (VDict required) ->
  schema !! "optional" = Some (VDict optional) ->
  dom kwargs = dom required ∪ dom optional ->
  call f self kwargs h = (inr (VDict ∅), h).
Proof.
  intros Hk Hf Hg Hcall Hreq Hopt Hdom.
  apply NODE_CLASS_MAPPINGS_entry in Hk as [-> ->].
  assert (Hact : node_action MobileFormSettings = Some store)
    by (vm_compute; reflexivity).
  rewrite Hact in Hf. injection Hf as <-.
  assert (Hin : cls_dict MobileFormSettings !! "INPUT_TYPES"
                = Some (ClassMethod INPUT_TYPES))
    by (vm_compute; reflexivity).
  rewrite Hin in Hg. injection Hg as <-.
  rewrite INPUT_TYPES_schema in Hcall. injection Hcall as <-.
  rewrite lookup_insert_ne, lookup_insert_eq in Hreq by done.
  rewrite lookup_insert_eq in Hopt.
  injection Hreq as <-. injection Hopt as <-.
  rewrite dom_singleton_L, dom_empty_L in Hdom.
  unfold call.
  change (fn_params store) with [("settings_json", Some (VStr "{}"))].
  rewrite bind_params_one, decide_True; [reflexivity|].
  rewrite Hdom. set_solver.
Qed.

End Node.

(** ** Instances of the properties that have a premise *)

Lemma registered_under_class_name_witness :
  NODE_CLASS_MAPPINGS (fun _ => None) !! "MobileFormSettings"
  = Some (MobileFormSettings (fun _ => None)) /\
  cls_name (MobileFormSettings (fun _ => None)) = "MobileFormSettings".
Proof.
  split; [vm_compute; reflexivity|].
  apply (registered_under_class_name (fun _ => None) "MobileFormSettings").
  vm_compute; reflexivity.
Defined.

Lemma methods_leave_heap_witness :
  cls_dict (MobileFormSettings (fun _ => None)) !! "store"
  = Some (InstanceMethod store) /\
  member_function (InstanceMethod store) = Some store /\
  snd (call store (VObj 0) {[ "settings_json" := VStr "{}" ]} ∅) = ∅.
Proof.
  split; [vm_compute; reflexivity|]. split; [reflexivity|].
  apply (methods_leave_heap (fun _ => None) "store" (InstanceMethod store)).
  - vm_compute; reflexivity.
  - reflexivity.
Defined.

Lemma registered_action_accepts_declared_fields_witness :
  call store (VObj 0) {[ "settings_json" := VStr "[1, 2]" ]} ∅
  = (inr (VDict ∅), ∅).
Proof.
  apply (registered_action_accepts_declared_fields (fun _ => None)
           "MobileFormSettings" (MobileFormSettings (fun _ => None))
           store INPUT_TYPES
           (dict_display [
              ("required", VDict (dict_display [
                 ("settings_json", VTuple [
                    VStr "STRING";
                    VDict (dict_display [
                      ("default", VStr "{}");
                      ("multiline", VBool true);
                      ("dynamicPrompts", VBool false) ]) ]) ]));
              ("optional", VDict (dict_display [])) ])
           (dict_display [
              ("settings_json", VTuple [
                 VStr "STRING";
                 VDict (dict_display [
                   ("default", VStr "{}");
                   ("multiline", VBool true);
                   ("dynamicPrompts", VBool false) ]) ]) ])
           (dict_display [])
           {[ "settings_json" := VStr "[1, 2]" ]}
           (VObj 0) (VType "MobileFormSettings") ∅);
    vm_compute; reflexivity.
Defined.
